(** * Knowhere's Annoy index wrapper and the DescribeTable request

    A shallow embedding of
    - [core/src/index/knowhere/knowhere/index/vector_index/IndexAnnoy.cpp]
    - [core/src/server/delivery/request/DescribeTableRequest.cpp]
    followed by the properties of the two translation units. *)

From Stdlib Require Import ZArith Lia.
From Stdlib Require Import Strings.String Strings.Ascii Strings.Byte.
From stdpp Require Import base option list sorting strings gmap.

(** ** Common vocabulary *)

Module cxx.

(** What running a member function can end in: a value, a C++ exception
    carrying its message, or one of the memory faults below (for which the
    language gives the program no meaning). *)
Inductive fault : Set :=
| OutOfBoundsWrite    (* memcpy past the end of the destination object *)
| OutOfBoundsRead     (* read past the end of a caller-supplied buffer *)
| IndeterminateRead   (* use of an object whose bytes were never all written *)
| MissingSection      (* BinarySet accessor called on an absent name *)
| NullDereference     (* member call through a null pointer *)
| Terminate           (* an exception leaves an OpenMP region: std::terminate *)
| BadLoopBound.       (* bound of an OpenMP loop outside its counter's type *)

Inductive outcome (A : Type) : Type :=
| Ok (a : A)
| Throw (msg : string)
| Fault (f : fault).
Global Arguments Ok {A} a.
Global Arguments Throw {A} msg.
Global Arguments Fault {A} f.

(** A cell of raw storage: either written, or still as the allocator
    returned it. *)
Inductive cell (A : Type) : Type :=
| Init (a : A)
| Uninit.
Global Arguments Init {A} a.
Global Arguments Uninit {A}.

(** [std::string::resize(n)]: keeps the first [n] characters and pads with
    [CharT()], the NUL character, up to length [n]. *)
Fixpoint resize (n : nat) (s : string) : string :=
  match n with
  | O => EmptyString
  | S n' =>
      match s with
      | EmptyString => String Ascii.zero (resize n' EmptyString)
      | String c s' => String c (resize n' s')
      end
  end.

(** [memcpy(s.data(), src, |src|)] into the character array of a string at
    least as long as [src]. *)
Fixpoint memcpy_string (dst : string) (src : list byte) {struct src} : string :=
  match src, dst with
  | [], _ => dst
  | b :: src', String _ dst' => String (ascii_of_byte b) (memcpy_string dst' src')
  | _ :: _, EmptyString => EmptyString
  end.

(** [memcpy(buf, s.data(), s.length())]. *)
Definition string_bytes (s : string) : list byte := list_byte_of_string s.

(** Two's complement views of a 64-bit word. *)
Definition to_uint64 (z : Z) : Z := (z mod 2 ^ 64)%Z.
Definition to_int64 (z : Z) : Z := ((z + 2 ^ 63) mod 2 ^ 64 - 2 ^ 63)%Z.

Definition byte_of_Z (z : Z) : byte :=
  default x00 (Byte.of_N (Z.to_N (z mod 256))).
Definition Z_of_byte (b : byte) : Z := Z.of_N (Byte.to_N b).

(** The object representation of a 64-bit integer on the little-endian
    hosts the server is built for. *)
Definition uint64_bytes (z : Z) : list byte :=
  (fun i : nat => byte_of_Z (Z.shiftr (to_uint64 z) (8 * Z.of_nat i))) <$> seq 0 8.

Fixpoint uint64_of_bytes (bs : list byte) : Z :=
  match bs with
  | [] => 0
  | b :: bs' => Z_of_byte b + 256 * uint64_of_bytes bs'
  end%Z.

(** [uint64_t dim; memcpy(&dim, src, |src|)]: the destination is 8 bytes
    wide.  A longer source runs past it; a shorter one leaves [dim]
    partly unwritten, so that it has no value to read. *)
Definition memcpy_uint64 (src : list byte) : outcome (option Z) :=
  if decide (8 < length src) then Fault OutOfBoundsWrite
  else if decide (length src = 8) then Ok (Some (uint64_of_bytes src))
  else Ok None.

(** [memcpy(dst, v.data(), k * sizeof(T))] out of a vector on which
    [reserve(k)] was called: the first [v.size()] elements are the
    vector's, the others are storage it never constructed. *)
Definition copy_from_vector {A} (k : nat) (v : list A) : list (cell A) :=
  (Init <$> take k v) ++ replicate (k - length v) Uninit.

(** Reading [n] consecutive elements at [p + off]. *)
Definition read_at {A} (p : list A) (off n : Z) : outcome (list A) :=
  let r := take (Z.to_nat n) (drop (Z.to_nat off) p) in
  if decide (length r = Z.to_nat n) then Ok r else Fault OutOfBoundsRead.

End cxx.

(** ** [milvus::knowhere::IndexAnnoy] *)

Module knowhere.
Import cxx.

(** The distance template argument of [AnnoyIndex]. *)
Inductive Distance : Set := Euclidean | DotProduct.

(** The [AnnoyIndex<int64_t, float, D, Kiss64Random>] class template comes
    from the bundled annoy library, whose sources are not part of the two
    translation units; the wrapper is verified against this interface.
    Mutating members return the new object. *)
Class AnnoyLib : Type := {
  (** the element type [float] *)
  float : Type;
  AnnoyIndex : Type;
  (** [std::make_shared<AnnoyIndex<..., D, ...>>(dim)] *)
  make_index : Distance -> Z -> AnnoyIndex;
  add_item : Z -> list float -> AnnoyIndex -> AnnoyIndex;
  build : Z -> AnnoyIndex -> AnnoyIndex;
  (** [get_index()], of [get_index_length()] bytes *)
  get_index : AnnoyIndex -> list byte;
  (** [load_index(data, size, &error)]: the object afterwards, and the
      error text when the call returns [false] *)
  load_index : list byte -> AnnoyIndex -> AnnoyIndex * option string;
  get_n_items : AnnoyIndex -> Z;
  get_dim : AnnoyIndex -> Z;
  (** [get_nns_by_vector(w, n, search_k, &result, &distances, blacklist)]:
      what it pushes onto the two (empty) vectors *)
  get_nns_by_vector :
    AnnoyIndex -> list float -> Z -> Z -> option (gset Z) -> list Z * list float;
}.

(** [Metric::L2], [Metric::IP]: C string constants. *)
Definition Metric_L2 : string := "L2".
Definition Metric_IP : string := "IP".

(** The entries of the json [Config] the wrapper reads. *)
Record Config : Type := {
  cfg_metric_type : string;   (* config[Metric::TYPE] *)
  cfg_n_trees : Z;            (* config[IndexParams::n_trees] *)
  cfg_topk : Z;               (* config[meta::TOPK] *)
  cfg_search_k : Z;           (* config[IndexParams::search_k] *)
}.

(** A [BinarySet] maps section names to byte buffers of known size. *)
Abbreviation BinarySet := (gmap string (list byte)).

(** [BinarySet::GetByName] followed by a dereference of the result. *)
Definition GetByName (name : string) (bs : BinarySet) : outcome (list byte) :=
  match bs !! name with
  | Some b => Ok b
  | None => Fault MissingSection
  end.

Section IndexAnnoy.
Context `{lib : AnnoyLib}.

(** The entries [GETTENSOR] / [GETTENSORWITHIDS] bind out of a dataset. *)
Record Dataset : Type := {
  ds_dim : Z;                 (* meta::DIM *)
  ds_rows : Z;                (* meta::ROWS *)
  ds_tensor : list float;     (* meta::TENSOR, row-major *)
  ds_ids : list Z;            (* meta::IDS *)
}.

(** The two buffers [Query] hands back, [rows * k] cells each. *)
Record QueryResult : Type := {
  res_ids : list (cell Z);          (* meta::IDS *)
  res_distance : list (cell float); (* meta::DISTANCE *)
}.

(** The data members of the object. [index_] is a shared pointer, null
    until an index is created; [index_size_] starts at -1. *)
Record IndexAnnoy : Type := {
  index_ : option AnnoyIndex;
  metric_type_ : string;
  index_size_ : Z;
  bitset_ : option (gset Z);  (* what GetBlacklist() returns *)
}.

Definition set_index (a : AnnoyIndex) (self : IndexAnnoy) : IndexAnnoy :=
  {| index_ := Some a; metric_type_ := metric_type_ self;
     index_size_ := index_size_ self; bitset_ := bitset_ self |}.
Definition set_metric_type (m : string) (self : IndexAnnoy) : IndexAnnoy :=
  {| index_ := index_ self; metric_type_ := m;
     index_size_ := index_size_ self; bitset_ := bitset_ self |}.
Definition set_index_size (n : Z) (self : IndexAnnoy) : IndexAnnoy :=
  {| index_ := index_ self; metric_type_ := metric_type_ self;
     index_size_ := n; bitset_ := bitset_ self |}.

(** A freshly constructed object. *)
Definition new_IndexAnnoy : IndexAnnoy :=
  {| index_ := None; metric_type_ := ""; index_size_ := (-1)%Z; bitset_ := None |}.

(** Member functions run in a state-and-outcome monad over the object. *)
Definition M (A : Type) : Type := IndexAnnoy -> outcome A * IndexAnnoy.

Definition ret {A} (a : A) : M A := fun self => (Ok a, self).
Definition bind {A B} (m : M A) (k : A -> M B) : M B :=
  fun self =>
    match m self with
    | (Ok a, self') => k a self'
    | (Throw msg, self') => (Throw msg, self')
    | (Fault f, self') => (Fault f, self')
    end.
Definition KNOWHERE_THROW_MSG {A} (msg : string) : M A := fun self => (Throw msg, self).
Definition lift {A} (o : outcome A) : M A := fun self => (o, self).
Definition this : M IndexAnnoy := fun self => (Ok self, self).
Definition update (f : IndexAnnoy -> IndexAnnoy) : M unit := fun self => (Ok tt, f self).

#[export] Instance M_ret : MRet M := @ret.
#[export] Instance M_bind : MBind M := fun A B k m => bind m k.

(** [index_->] *)
Definition deref_index : M AnnoyIndex :=
  self ← this;
  match index_ self with
  | Some a => ret a
  | None => lift (Fault NullDereference)
  end.

(** Reading the local [uint64_t dim] of [Load]. *)
Definition read_uint64 (dim : option Z) : M Z :=
  match dim with
  | Some d => ret d
  | None => lift (Fault IndeterminateRead)
  end.

(** [IndexAnnoy::Count] *)
Definition Count : M Z :=
  self ← this;
  match index_ self with
  | None => KNOWHERE_THROW_MSG "index not initialize"
  | Some a => ret (get_n_items a)
  end.

(** [IndexAnnoy::Dim] *)
Definition Dim : M Z :=
  self ← this;
  match index_ self with
  | None => KNOWHERE_THROW_MSG "index not initialize"
  | Some a => ret (get_dim a)
  end.

(** [IndexAnnoy::Serialize] *)
Definition Serialize : M BinarySet :=
  self ← this;
  match index_ self with
  | None => KNOWHERE_THROW_MSG "index not initialize or trained"
  | Some a =>
      let metric_type := string_bytes (metric_type_ self) in
      dim ← Dim;
      let dim_data := uint64_bytes dim in
      let index_data := get_index a in
      ret (<["annoy_index_data" := index_data]>
             (<["annoy_dim" := dim_data]>
                (<["annoy_metric_type" := metric_type]> ∅)))
  end.

(** The first two statements of [Load] on [metric_type_]: resized to one
    character more than the section holds, then overwritten with the
    section. *)
Definition loaded_metric_type (metric_type : list byte) (self : IndexAnnoy) : string :=
  memcpy_string (resize (length metric_type + 1) (metric_type_ self)) metric_type.

(** [IndexAnnoy::Load] *)
Definition Load (index_binary : BinarySet) : M unit :=
  metric_type ← lift (GetByName "annoy_metric_type" index_binary);
  update (fun self => set_metric_type (loaded_metric_type metric_type self) self);;
  dim_data ← lift (GetByName "annoy_dim" index_binary);
  dim ← lift (memcpy_uint64 dim_data);
  self ← this;
  (if String.eqb (metric_type_ self) Metric_L2 then
     d ← read_uint64 dim; update (set_index (make_index Euclidean d))
   else if String.eqb (metric_type_ self) Metric_IP then
     d ← read_uint64 dim; update (set_index (make_index DotProduct d))
   else
     KNOWHERE_THROW_MSG ("metric not supported " +:+ metric_type_ self));;
  index_data ← lift (GetByName "annoy_index_data" index_binary);
  a ← deref_index;
  let '(a', error) := load_index index_data a in
  update (set_index a');;
  match error with
  | Some error_msg => KNOWHERE_THROW_MSG error_msg
  | None => ret tt
  end.

(** [IndexAnnoy::BuildAll] *)
Definition BuildAll (dataset_ptr : Dataset) (config : Config) : M unit :=
  self ← this;
  if bool_decide (is_Some (index_ self)) then
    (* it is builded all *)
    ret tt
  else
    let dim := ds_dim dataset_ptr in
    let rows := ds_rows dataset_ptr in
    let p_data := ds_tensor dataset_ptr in
    let p_ids := ds_ids dataset_ptr in
    update (set_metric_type (cfg_metric_type config));;
    self ← this;
    (if String.eqb (metric_type_ self) Metric_L2 then
       update (set_index (make_index Euclidean dim))
     else if String.eqb (metric_type_ self) Metric_IP then
       update (set_index (make_index DotProduct dim))
     else
       KNOWHERE_THROW_MSG ("metric not supported " +:+ metric_type_ self));;
    mapM (fun i : nat =>
            a ← deref_index;
            id ← lift (from_option Ok (Fault OutOfBoundsRead) (p_ids !! i));
            w ← lift (read_at p_data (dim * Z.of_nat i) (get_dim a));
            update (set_index (add_item id w a)))
         (seq 0 (Z.to_nat rows));;
    a ← deref_index;
    update (set_index (build (cfg_n_trees config) a)).

(** One iteration of the loop of [Query]: the two [k]-cell blocks written
    at [p_id + k * i] and [p_dist + k * i]. *)
Definition query_row (a : AnnoyIndex) (blacklist : option (gset Z))
    (p_data : list float) (dim k search_k : Z) (i : nat)
  : outcome (list (cell Z) * list (cell float)) :=
  (* result.reserve(k): a negative k is a size beyond max_size(), and the
     std::length_error raised for it cannot leave the parallel region *)
  if decide (k < 0)%Z then Fault Terminate
  else
    match read_at p_data (Z.of_nat i * dim) (get_dim a) with
    | Ok w =>
        let '(result, distances) := get_nns_by_vector a w k search_k blacklist in
        Ok (copy_from_vector (Z.to_nat k) result,
            copy_from_vector (Z.to_nat k) distances)
    | Throw msg => Throw msg
    | Fault f => Fault f
    end.

(** [IndexAnnoy::Query].  The iterations write disjoint blocks, so the
    buffers are the blocks in row order however the loop is scheduled.
    The loop counter is an [unsigned int]: a row count below 0 or from
    2^32 on is no bound the parallel loop can run to. *)
Definition Query (dataset_ptr : Dataset) (config : Config) : M QueryResult :=
  self ← this;
  match index_ self with
  | None => KNOWHERE_THROW_MSG "index not initialize or trained"
  | Some a =>
      let dim := ds_dim dataset_ptr in
      let rows := ds_rows dataset_ptr in
      let p_data := ds_tensor dataset_ptr in
      let k := cfg_topk config in
      let search_k := cfg_search_k config in
      let blacklist := bitset_ self in
      if decide (0 ≤ rows < 2 ^ 32)%Z then
        blocks ← mapM (fun i => lift (query_row a blacklist p_data dim k search_k i))
                      (seq 0 (Z.to_nat rows));
        ret {| res_ids := concat (fst <$> blocks);
               res_distance := concat (snd <$> blocks) |}
      else lift (Fault BadLoopBound)
  end.

Definition sizeof_float : Z := 4.

(** [IndexAnnoy::IndexSize]: [Dim() * Count()] is an [int64_t] product,
    widened to [size_t] for the multiplication by [sizeof(float)] and
    stored back into the [int64_t] member. *)
Definition IndexSize : M Z :=
  self ← this;
  if decide (index_size_ self ≠ (-1)%Z) then
    ret (index_size_ self)
  else
    d ← Dim;
    c ← Count;
    let v := to_int64 (to_uint64 (to_int64 (d * c)) * sizeof_float) in
    update (set_index_size v);;
    ret v.



End IndexAnnoy.

Global Arguments Dataset {lib}.
Global Arguments QueryResult {lib}.
Global Arguments IndexAnnoy {lib}.

(** The lifecycle states of the specification. *)
Definition Empty `{AnnoyLib} (self : IndexAnnoy) : Prop := index_ self = None.
Definition Built `{AnnoyLib} (self : IndexAnnoy) : Prop := is_Some (index_ self).

(** The error taxonomy of the specification, read off the exception text. *)
Definition NotInitialized (msg : string) : bool :=
  String.eqb msg "index not initialize or trained" || String.eqb msg "index not initialize".
Definition UnsupportedMetric (msg : string) : bool :=
  String.prefix "metric not supported " msg.

Definition raises {A} (kind : string -> bool) (o : outcome A) : Prop :=
  match o with
  | Throw msg => kind msg = true
  | _ => False
  end.

End knowhere.

(** ** [milvus::server::DescribeTableRequest] *)

Module server.

(** [milvus::Status], declared in a header outside the two translation
    units: an error code and a message; [Status::OK()] carries code 0, and
    [ok()] tests for it. *)
Record Status : Type := { code : Z; message : string }.
Definition Status_OK : Status := {| code := 0; message := "" |}.
Definition ok (s : Status) : bool := (code s =? 0)%Z.

(** The output argument of the request. *)
Record CollectionSchema : Type := {
  collection_name_ : string;
  dimension_ : Z;
  index_file_size_ : Z;
  metric_type_ : Z;
}.

(** The members of [engine::meta::CollectionSchema] the request touches. *)
Record meta_CollectionSchema : Type := {
  collection_id_ : string;
  owner_table_ : string;
  meta_dimension_ : Z;
  meta_index_file_size_ : Z;
  meta_metric_type_ : Z;
}.

Definition set_collection_id (id : string) (t : meta_CollectionSchema)
  : meta_CollectionSchema :=
  {| collection_id_ := id; owner_table_ := owner_table_ t;
     meta_dimension_ := meta_dimension_ t;
     meta_index_file_size_ := meta_index_file_size_ t;
     meta_metric_type_ := meta_metric_type_ t |}.

(** What a call can throw: an object of a class derived from
    [std::exception], with its [what()], or an object of any other type. *)
Inductive exn : Type :=
| std_exception (what : string)
| other_exception.

(** A call returns, or throws. *)
Inductive call (A : Type) : Type :=
| Returns (a : A)
| Raises (e : exn).
Global Arguments Returns {A} a.
Global Arguments Raises {A} e.

(** Everything [OnExecute] consults besides its own members: the
    library and the collaborators it calls, the error constants of
    [utils/Error.h], and the two fail points. *)
Record Collaborators : Type := {
  (** [operator+] on [std::string]: what it throws, if obtaining the
      storage of the concatenation fails *)
  string_plus_throws : string -> string -> option exn;
  (** the constructor of [TimeRecorderAuto] *)
  TimeRecorderAuto : string -> call unit;
  ValidateCollectionName : string -> call Status;
  (** a default-constructed [engine::meta::CollectionSchema] *)
  fresh_table_schema : meta_CollectionSchema;
  (** [DBWrapper::DB()->DescribeTable(table_schema)], filling its argument *)
  DescribeTable : meta_CollectionSchema -> call (Status * meta_CollectionSchema);
  TableNotExistMsg : string -> string;
  SERVER_UNEXPECTED_ERROR : Z;
  SERVER_TABLE_NOT_EXIST : Z;
  SERVER_INVALID_TABLE_NAME : Z;
  DB_NOT_FOUND : Z;
  (** "DescribeTableRequest.OnExecute.describe_table_fail" is enabled *)
  fiu_describe_table_fail : bool;
  (** "DescribeTableRequest.OnExecute.throw_std_exception" is enabled *)
  fiu_throw_std_exception : bool;
}.

Section DescribeTableRequest.
Variable env : Collaborators.
(** The member [collection_name_] of the request. *)
Variable request_collection_name_ : string.

(** [a + b] on strings. *)
Definition string_plus (a b : string) : call string :=
  match string_plus_throws env a b with
  | Some e => Raises e
  | None => Returns (a +:+ b)
  end.

(** The two declarations ahead of the [try] block: the string [hdr] and
    the time recorder [rc(hdr)]. *)
Definition prologue : call unit :=
  match string_plus "DescribeTableRequest(collection=" request_collection_name_ with
  | Raises e => Raises e
  | Returns s =>
      match string_plus s ")" with
      | Raises e => Raises e
      | Returns hdr => TimeRecorderAuto env hdr
      end
  end.

(** The [try] block, run on the referenced [schema_]: how it is left
    ([Some] status for a [return] inside it, [None] for falling out of its
    end, or the exception in flight) and [schema_] at that point. *)
Definition try_block (schema_ : CollectionSchema)
  : call (option Status) * CollectionSchema :=
  (* step 1: check arguments *)
  match ValidateCollectionName env request_collection_name_ with
  | Raises ex => (Raises ex, schema_)
  | Returns status =>
      if negb (ok status) then (Returns (Some status), schema_)
      else
        (* step 2: get collection info *)
        let table_schema := set_collection_id request_collection_name_ (fresh_table_schema env) in
        match DescribeTable env table_schema with
        | Raises ex => (Raises ex, schema_)
        | Returns (status, table_schema) =>
            let status :=
              if fiu_describe_table_fail env
              then {| code := SERVER_UNEXPECTED_ERROR env; message := "" |}
              else status in
            if fiu_throw_std_exception env
            then (Raises (std_exception "std::exception"), schema_)
            else if negb (ok status) then
              if (code status =? DB_NOT_FOUND env)%Z then
                (Returns (Some {| code := SERVER_TABLE_NOT_EXIST env;
                                  message := TableNotExistMsg env request_collection_name_ |}),
                 schema_)
              else (Returns (Some status), schema_)
            else if negb (String.eqb (owner_table_ table_schema) "") then
              (Returns (Some {| code := SERVER_INVALID_TABLE_NAME env;
                                message := TableNotExistMsg env request_collection_name_ |}),
               schema_)
            else
              (Returns None,
               {| collection_name_ := collection_id_ table_schema;
                  dimension_ := meta_dimension_ table_schema;
                  index_file_size_ := meta_index_file_size_ table_schema;
                  metric_type_ := meta_metric_type_ table_schema |})
        end
  end.

(** [DescribeTableRequest::OnExecute]: the status returned or the
    exception that leaves the call, and [schema_] afterwards.  The handler
    is [catch (std::exception& ex)]: it stops the exceptions derived from
    [std::exception] that the [try] block raises, and no others. *)
Definition OnExecute (schema_ : CollectionSchema) : call Status * CollectionSchema :=
  match prologue with
  | Raises e => (Raises e, schema_)
  | Returns _ =>
      match try_block schema_ with
      | (Raises (std_exception ex), schema_') =>
          (Returns {| code := SERVER_UNEXPECTED_ERROR env; message := ex |}, schema_')
      | (Raises other_exception, schema_') => (Raises other_exception, schema_')
      | (Returns (Some status), schema_') => (Returns status, schema_')
      | (Returns None, schema_') => (Returns Status_OK, schema_')
      end
  end.

(** What the four assignments at the end of the [try] block store. *)
Definition described (table_schema : meta_CollectionSchema) : CollectionSchema :=
  {| collection_name_ := collection_id_ table_schema;
     dimension_ := meta_dimension_ table_schema;
     index_file_size_ := meta_index_file_size_ table_schema;
     metric_type_ := meta_metric_type_ table_schema |}.

(** The success path: the declarations ahead of the [try] block do not
    throw, the name is valid, no exception is injected, the status of the
    database call (as the fail point may have replaced it) is OK, and the
    collection described is a root collection. *)
Definition success_path (table_schema : meta_CollectionSchema) : Prop :=
  ∃ valid found : Status,
    prologue = Returns ()
    ∧ ValidateCollectionName env request_collection_name_ = Returns valid
    ∧ ok valid = true
    ∧ DescribeTable env (set_collection_id request_collection_name_ (fresh_table_schema env))
      = Returns (found, table_schema)
    ∧ fiu_throw_std_exception env = false
    ∧ ok (if fiu_describe_table_fail env
          then {| code := SERVER_UNEXPECTED_ERROR env; message := "" |}
          else found) = true
    ∧ owner_table_ table_schema = "".

End DescribeTableRequest.
End server.

(** ** A reference implementation of the annoy interface *)

Module annoy_ref.
Import cxx knowhere.

(** Modelled from the spec: the annoy library itself is not among the
    sources.  This is the Index of the data model (metric, dim, vector
    store) answering the Query Engine's contract by visiting every item,
    the case of a budget that exhausts all leaves; components are integers
    so that distances are exact. *)
Record index : Type := {
  metric : Distance;
  f : Z;
  items : list (Z * list Z);
  n_trees : Z;
}.

Definition dot (v w : list Z) : Z := foldr Z.add 0%Z (zip_with Z.mul v w).

(** Euclidean: sum of squared differences; InnerProduct: rank by [-dot]. *)
Definition distance (d : Distance) (v w : list Z) : Z :=
  match d with
  | Euclidean => foldr Z.add 0%Z (zip_with (fun a b => (a - b) * (a - b))%Z v w)
  | DotProduct => (- dot v w)%Z
  end.

(** Ascending distance, ties broken by the smaller id. *)
Definition closer (p q : Z * Z) : Prop :=
  (p.1 < q.1)%Z ∨ (p.1 = q.1 ∧ (p.2 ≤ q.2)%Z).

#[local] Instance closer_dec p q : Decision (closer p q).
Proof. unfold closer. apply _. Defined.

Definition blacklisted (blacklist : option (gset Z)) (id : Z) : bool :=
  from_option (fun s => bool_decide (id ∈ s)) false blacklist.

(** Modelled from the spec: the [k] nearest candidates that survive the
    blacklist, in ascending distance, or all of them when fewer remain. *)
Definition nns (a : index) (w : list Z) (k search_k : Z) (blacklist : option (gset Z))
  : list Z * list Z :=
  let candidates := filter (fun it => blacklisted blacklist it.1 = false) (items a) in
  let scored := (fun it => (distance (metric a) it.2 w, it.1)) <$> candidates in
  let top := take (Z.to_nat k) (merge_sort closer scored) in
  (snd <$> top, fst <$> top).

(** Modelled from the spec: the data region holds the tree count, the
    item count, then per item its id and its [f] components, each an
    8-byte word. *)
Definition region (a : index) : list byte :=
  mjoin (uint64_bytes <$>
    (n_trees a :: Z.of_nat (length (items a)) :: mjoin ((fun it => it.1 :: it.2) <$> items a))).

Fixpoint words (n : nat) (bs : list byte) : list Z :=
  match n with
  | O => []
  | S n' => to_int64 (uint64_of_bytes (take 8 bs)) :: words n' (drop 8 bs)
  end.

Fixpoint rows (width n : nat) (ws : list Z) : list (Z * list Z) :=
  match n, ws with
  | S n', id :: ws' => (id, take width ws') :: rows width n' (drop width ws')
  | _, _ => []
  end.

(** Modelled from the spec: reloading checks the region against the
    counts it declares. *)
Definition reload (data : list byte) (a : index) : index * option string :=
  match words (length data / 8) data with
  | trees :: count :: ws =>
      if decide (length data `mod` 8 = 0
                 ∧ (0 ≤ count)%Z ∧ (0 ≤ f a)%Z
                 ∧ Z.of_nat (length ws) = (count * (1 + f a))%Z)
      then ({| metric := metric a; f := f a;
               items := rows (Z.to_nat (f a)) (Z.to_nat count) ws;
               n_trees := trees |}, None)
      else (a, Some "Index size is not a multiple of vector size")
  | _ => (a, Some "Index size is not a multiple of vector size")
  end.

#[export] Instance lib : AnnoyLib := {|
  float := Z;
  AnnoyIndex := index;
  make_index d dim := {| metric := d; f := dim; items := []; n_trees := 0 |};
  add_item id w a :=
    {| metric := metric a; f := f a; items := items a ++ [(id, w)]; n_trees := n_trees a |};
  build q a :=
    {| metric := metric a; f := f a; items := items a; n_trees := q |};
  get_index := region;
  load_index := reload;
  get_n_items a := Z.of_nat (length (items a));
  get_dim := f;
  get_nns_by_vector := nns;
|}.

End annoy_ref.

(** ** Concrete objects the properties are tried on *)

Module examples.
Import cxx knowhere.
#[local] Existing Instance annoy_ref.lib.

(** One two-dimensional vector with id 7. *)
Definition one_item : Dataset (lib := annoy_ref.lib) :=
  {| ds_dim := 2; ds_rows := 1; ds_tensor := [3; 4]%Z; ds_ids := [7%Z] |}.

Definition l2_config : Config :=
  {| cfg_metric_type := "L2"; cfg_n_trees := 1; cfg_topk := 2; cfg_search_k := 10 |}.

Definition cosine_config : Config :=
  {| cfg_metric_type := "cosine"; cfg_n_trees := 1; cfg_topk := 2; cfg_search_k := 10 |}.

(** The index [BuildAll] makes of [one_item], and the object holding it. *)
Definition built_index : annoy_ref.index :=
  {| annoy_ref.metric := Euclidean; annoy_ref.f := 2;
     annoy_ref.items := [(7%Z, [3; 4]%Z)]; annoy_ref.n_trees := 1 |}.

Definition built : IndexAnnoy (lib := annoy_ref.lib) :=
  (BuildAll one_item l2_config new_IndexAnnoy).2.

(** A blob naming the metric "L2" in exactly two bytes. *)
Definition l2_blob : BinarySet :=
  <["annoy_index_data" := annoy_ref.region built_index]>
    (<["annoy_dim" := uint64_bytes 2]>
       (<["annoy_metric_type" := string_bytes "L2"]> ∅)).

(** The same blob with a 16-byte dim section. *)
Definition long_dim_blob : BinarySet :=
  <["annoy_dim" := uint64_bytes 2 ++ uint64_bytes 0]> l2_blob.

(** A server whose only collection is the root collection "vectors";
    the error constants are given sample values. *)
Definition env : server.Collaborators :=
  {| server.string_plus_throws _ _ := None;
     server.TimeRecorderAuto _ := server.Returns ();
     server.ValidateCollectionName name :=
       if String.eqb name ""
       then server.Returns {| server.code := 30101;
                              server.message := "Collection name should not be empty." |}
       else server.Returns server.Status_OK;
     server.fresh_table_schema :=
       {| server.collection_id_ := ""; server.owner_table_ := "";
          server.meta_dimension_ := 0; server.meta_index_file_size_ := 1024;
          server.meta_metric_type_ := 1 |};
     server.DescribeTable t :=
       if String.eqb (server.collection_id_ t) "vectors"
       then server.Returns
              (server.Status_OK,
               {| server.collection_id_ := "vectors"; server.owner_table_ := "";
                  server.meta_dimension_ := 128; server.meta_index_file_size_ := 1024;
                  server.meta_metric_type_ := 1 |})
       else server.Returns ({| server.code := 40003; server.message := "not found" |}, t);
     server.TableNotExistMsg name := "Collection " +:+ name +:+ " does not exist.";
     server.SERVER_UNEXPECTED_ERROR := 30001;
     server.SERVER_TABLE_NOT_EXIST := 30100;
     server.SERVER_INVALID_TABLE_NAME := 30101;
     server.DB_NOT_FOUND := 40003;
     server.fiu_describe_table_fail := false;
     server.fiu_throw_std_exception := false |}.

(** [l2_blob] with a one-byte metric section and an index region that is
    no whole number of words. *)
Definition short_metric_blob : BinarySet :=
  <["annoy_metric_type" := string_bytes "L"]>
    (<["annoy_index_data" := string_bytes "?"]> l2_blob).

(** An index of two items, a blob carrying its region under a one-byte
    metric section, [built] after a first [IndexSize], and that object
    after loading the blob. *)
Definition two_items_index : annoy_ref.index :=
  {| annoy_ref.metric := Euclidean; annoy_ref.f := 2;
     annoy_ref.items := [(7%Z, [3; 4]%Z); (8%Z, [0; 1]%Z)]; annoy_ref.n_trees := 1 |}.

Definition two_items_blob : BinarySet :=
  <["annoy_metric_type" := string_bytes "L"]>
    (<["annoy_index_data" := annoy_ref.region two_items_index]> l2_blob).

Definition sized : IndexAnnoy (lib := annoy_ref.lib) := (IndexSize built).2.

Definition reloaded : IndexAnnoy (lib := annoy_ref.lib) := (Load two_items_blob sized).2.

(** A blob naming a metric the wrapper does not know. *)
Definition cosine_blob : BinarySet :=
  <["annoy_metric_type" := string_bytes "cosine"]> l2_blob.

(** Three two-dimensional vectors. *)
Definition three_items : Dataset (lib := annoy_ref.lib) :=
  {| ds_dim := 2; ds_rows := 3; ds_tensor := [3; 4; 0; 1; 6; 8]%Z;
     ds_ids := [7; 8; 9]%Z |}.

(** The same server with the "describe_table_fail" fail point enabled. *)
Definition failing_env : server.Collaborators :=
  {| server.string_plus_throws := server.string_plus_throws env;
     server.TimeRecorderAuto := server.TimeRecorderAuto env;
     server.ValidateCollectionName := server.ValidateCollectionName env;
     server.fresh_table_schema := server.fresh_table_schema env;
     server.DescribeTable := server.DescribeTable env;
     server.TableNotExistMsg := server.TableNotExistMsg env;
     server.SERVER_UNEXPECTED_ERROR := server.SERVER_UNEXPECTED_ERROR env;
     server.SERVER_TABLE_NOT_EXIST := server.SERVER_TABLE_NOT_EXIST env;
     server.SERVER_INVALID_TABLE_NAME := server.SERVER_INVALID_TABLE_NAME env;
     server.DB_NOT_FOUND := server.DB_NOT_FOUND env;
     server.fiu_describe_table_fail := true;
     server.fiu_throw_std_exception := false |}.

(** The same server with a name validator that throws an object of a
    type outside the [std::exception] hierarchy. *)
Definition throwing_env : server.Collaborators :=
  {| server.string_plus_throws := server.string_plus_throws env;
     server.TimeRecorderAuto := server.TimeRecorderAuto env;
     server.ValidateCollectionName _ := server.Raises server.other_exception;
     server.fresh_table_schema := server.fresh_table_schema env;
     server.DescribeTable := server.DescribeTable env;
     server.TableNotExistMsg := server.TableNotExistMsg env;
     server.SERVER_UNEXPECTED_ERROR := server.SERVER_UNEXPECTED_ERROR env;
     server.SERVER_TABLE_NOT_EXIST := server.SERVER_TABLE_NOT_EXIST env;
     server.SERVER_INVALID_TABLE_NAME := server.SERVER_INVALID_TABLE_NAME env;
     server.DB_NOT_FOUND := server.DB_NOT_FOUND env;
     server.fiu_describe_table_fail := false;
     server.fiu_throw_std_exception := false |}.

Definition blank_schema : server.CollectionSchema :=
  {| server.collection_name_ := ""; server.dimension_ := 0;
     server.index_file_size_ := 0; server.metric_type_ := 0 |}.

End examples.

(** ** Facts about the C++ vocabulary *)

Module cxx_facts.
Import cxx.

Lemma length_resize (n : nat) (s : string) : String.length (resize n s) = n.
Proof.
  revert s. induction n as [|n IH]; intros s; simpl; [done|].
  destruct s; simpl; by rewrite IH.
Qed.

Lemma length_memcpy_string (dst : string) (src : list byte) :
  String.length (memcpy_string dst src) = String.length dst.
Proof.
  revert dst. induction src as [|b src IH]; intros dst; simpl; [done|].
  destruct dst; simpl; [done|]. by rewrite IH.
Qed.

Lemma length_string_bytes (s : string) : length (string_bytes s) = String.length s.
Proof.
  unfold string_bytes, list_byte_of_string.
  rewrite length_map. induction s; simpl; [done|]. by f_equal.
Qed.

Lemma eqb_length_neq (s t : string) :
  String.length s ≠ String.length t → String.eqb s t = false.
Proof.
  intros Hlen. destruct (String.eqb s t) eqn:E; [|done].
  apply String.eqb_eq in E. by subst.
Qed.

Lemma length_uint64_bytes (z : Z) : length (uint64_bytes z) = 8.
Proof. reflexivity. Qed.

Lemma to_int64_small (z : Z) : (- 2 ^ 63 ≤ z < 2 ^ 63)%Z → to_int64 z = z.
Proof. intros Hz. unfold to_int64. rewrite Z.mod_small; lia. Qed.

Lemma to_int64_mul_uint64 (z n : Z) : to_int64 (to_uint64 z * n) = to_int64 (z * n).
Proof.
  unfold to_int64, to_uint64. f_equal.
  rewrite <- (Zplus_mod_idemp_l (z mod 2 ^ 64 * n)), <- (Zplus_mod_idemp_l (z * n)).
  by rewrite Zmult_mod_idemp_l.
Qed.

Lemma length_copy_from_vector {A} (k : nat) (v : list A) :
  length (copy_from_vector k v) = k.
Proof.
  unfold copy_from_vector.
  rewrite length_app, length_fmap, length_take, length_replicate. lia.
Qed.

Lemma copy_from_vector_uninit {A} (k j : nat) (v : list A) :
  length v ≤ j < k → copy_from_vector k v !! j = Some Uninit.
Proof.
  intros Hj. unfold copy_from_vector.
  rewrite lookup_app_r; rewrite length_fmap, length_take; [|lia].
  apply lookup_replicate_2. lia.
Qed.


(** Element [j] of block [i] in a buffer made of [k]-cell blocks. *)
Lemma lookup_concat_blocks {A} (k : nat) (blocks : list (list A)) (i j : nat) (b : list A) :
  Forall (fun b => length b = k) blocks →
  blocks !! i = Some b → j < k →
  concat blocks !! (i * k + j) = b !! j.
Proof.
  intros Hall. revert i. induction Hall as [|b0 bs Hb0 _ IH]; intros i Hi Hj; [done|].
  destruct i as [|i]; simpl in *.
  - injection Hi as ->. rewrite lookup_app_l by lia. done.
  - rewrite lookup_app_r by lia.
    replace (k + i * k + j - length b0) with (i * k + j) by lia. by apply IH.
Qed.

End cxx_facts.

(** ** Properties of [IndexAnnoy] *)

Module IndexAnnoy_spec.
Import cxx cxx_facts knowhere.

Ltac run :=
  unfold Load, Serialize, BuildAll, Query, IndexSize, Count, Dim,
    deref_index, read_uint64, GetByName,
    mbind, M_bind, bind, mret, M_ret, ret, lift, update, this, KNOWHERE_THROW_MSG;
  simpl.

Section with_lib.
Context `{lib : AnnoyLib}.

Lemma length_loaded_metric_type section self :
  String.length (loaded_metric_type section self) = length section + 1.
Proof. unfold loaded_metric_type. by rewrite length_memcpy_string, length_resize. Qed.

(** A metric section of any length but 1 cannot compare equal to a
    two-character metric name, so [Load] stops at the [else] branch. *)
Lemma Load_metric_mismatch (blob : BinarySet) (self : IndexAnnoy) (m d : list byte) :
  blob !! "annoy_metric_type" = Some m →
  blob !! "annoy_dim" = Some d →
  length d ≤ 8 →
  length m ≠ 1 →
  Load blob self =
    (Throw ("metric not supported " +:+ loaded_metric_type m self),
     set_metric_type (loaded_metric_type m self) self).
Proof.
  intros Hm Hd Hlen Hm1. run. rewrite Hm. simpl. rewrite Hd. simpl.
  assert (Hdim : ∃ dim, memcpy_uint64 d = Ok dim).
  { unfold memcpy_uint64. repeat case_decide; eauto; lia. }
  destruct Hdim as [dim ->].
  pose proof (length_loaded_metric_type m self) as Hl.
  rewrite !eqb_length_neq; [done| |]; rewrite Hl; simpl; lia.
Qed.

Lemma raises_unsupported (m : string) :
  UnsupportedMetric ("metric not supported " +:+ m) = true.
Proof.
  unfold UnsupportedMetric. apply prefix_correct. simpl.
  by destruct m.
Qed.

Lemma Empty_not_initialized (self : IndexAnnoy) (ds : Dataset) (cfg : Config) :
  Empty self →
  Serialize self = (Throw "index not initialize or trained", self)
  ∧ Query ds cfg self = (Throw "index not initialize or trained", self)
  ∧ Count self = (Throw "index not initialize", self)
  ∧ Dim self = (Throw "index not initialize", self).
Proof. unfold Empty. intros He. run. by rewrite He. Qed.

Lemma Built_Serialize (self : IndexAnnoy) (a : AnnoyIndex) :
  index_ self = Some a →
  Serialize self =
    (Ok (<["annoy_index_data" := get_index a]>
           (<["annoy_dim" := uint64_bytes (get_dim a)]>
              (<["annoy_metric_type" := string_bytes (metric_type_ self)]> ∅))),
     self).
Proof. intros Ha. run. by repeat (rewrite Ha; simpl). Qed.

(** The loop of [BuildAll] only ever replaces the index by a new one. *)
Lemma add_items_state (p_ids : list Z) (p_data : list float) (dim : Z)
    (l : list nat) (self : IndexAnnoy) :
  let after :=
    (mapM (M := M)
       (fun i : nat =>
          a ← deref_index;
          id ← lift (from_option Ok (Fault OutOfBoundsRead) (p_ids !! i));
          w ← lift (read_at p_data (dim * Z.of_nat i) (get_dim a));
          update (set_index (add_item id w a))) l self).2 in
  metric_type_ after = metric_type_ self ∧ (Built self → Built after).
Proof.
  revert self. induction l as [|i l IH]; intros self; [done|].
  simpl. run.
  destruct (index_ self) as [a|] eqn:Ha; simpl; [|done].
  destruct (p_ids !! i) as [id|]; simpl; [|done].
  destruct (read_at _ _ _) as [w| |]; simpl; [|done..].
  specialize (IH (set_index (add_item id w a) self)). simpl in IH.
  destruct IH as [IHm IHb].
  destruct (mapM (M := M) _ l _) as [[ys| |] self']; simpl in *;
    (split; [done|]; intros _; apply IHb; by eexists).
Qed.

(** X7.  A successful [BuildAll] on an Empty object leaves it Built, with the
    configured metric name, which is then "L2" or "IP". *)
Lemma BuildAll_Ok (self : IndexAnnoy) (ds : Dataset) (cfg : Config) :
  Empty self →
  (BuildAll ds cfg self).1 = Ok () →
  Built (BuildAll ds cfg self).2
  ∧ metric_type_ (BuildAll ds cfg self).2 = cfg_metric_type cfg
  ∧ (cfg_metric_type cfg = Metric_L2 ∨ cfg_metric_type cfg = Metric_IP).
Proof.
  unfold Empty. intros He HOk.
  destruct (BuildAll ds cfg self) as [o after] eqn:HB. simpl in *. subst o.
  revert HB.
  unfold BuildAll. unfold mbind at 1, M_bind at 1, bind at 1, this at 1.
  rewrite He. simpl.
  unfold mbind at 1, M_bind at 1, bind at 1, update at 1. simpl.
  unfold mbind at 1, M_bind at 1, bind at 1, this at 1. simpl.
  unfold mbind at 1, M_bind at 1, bind at 1.
  set (s0 := set_metric_type (cfg_metric_type cfg) self).
  assert (Hmake : ∃ d,
    (String.eqb (cfg_metric_type cfg) Metric_L2 || String.eqb (cfg_metric_type cfg) Metric_IP = true
     → (if String.eqb (cfg_metric_type cfg) Metric_L2
        then update (set_index (make_index Euclidean (ds_dim ds)))
        else if String.eqb (cfg_metric_type cfg) Metric_IP
             then update (set_index (make_index DotProduct (ds_dim ds)))
             else KNOWHERE_THROW_MSG ("metric not supported " +:+ cfg_metric_type cfg)) s0
       = (Ok (), set_index (make_index d (ds_dim ds)) s0))
    ∧ (String.eqb (cfg_metric_type cfg) Metric_L2 || String.eqb (cfg_metric_type cfg) Metric_IP = false
     → ((if String.eqb (cfg_metric_type cfg) Metric_L2
        then update (set_index (make_index Euclidean (ds_dim ds)))
        else if String.eqb (cfg_metric_type cfg) Metric_IP
             then update (set_index (make_index DotProduct (ds_dim ds)))
             else KNOWHERE_THROW_MSG ("metric not supported " +:+ cfg_metric_type cfg)) s0).1
       = Throw ("metric not supported " +:+ cfg_metric_type cfg))).
  { destruct (String.eqb (cfg_metric_type cfg) Metric_L2); [by exists Euclidean|].
    destruct (String.eqb (cfg_metric_type cfg) Metric_IP); by exists DotProduct. }
  destruct Hmake as (d & Hyes & Hno).
  destruct (String.eqb (cfg_metric_type cfg) Metric_L2 || String.eqb (cfg_metric_type cfg) Metric_IP)
    eqn:Hsupported.
  - rewrite (Hyes eq_refl).
    unfold mbind at 1, M_bind at 1, bind at 1.
    pose proof (add_items_state (ds_ids ds) (ds_tensor ds) (ds_dim ds)
                  (seq 0 (Z.to_nat (ds_rows ds)))
                  (set_index (make_index d (ds_dim ds)) s0)) as [Hm Hb].
    destruct (mapM (M := M) _ _ _) as [[ys| |] s1]; simpl in *; [|done..].
    destruct Hb as [a Ha]; [by eexists|].
    run. rewrite Ha. simpl. intros [= <-]. split; [by eexists|]. split; [done|].
    apply orb_true_iff in Hsupported as [H | H]; apply String.eqb_eq in H; auto.
  - specialize (Hno eq_refl).
    destruct (_ s0) as [[| |] ?]; simpl in *; done.
Qed.

(** C1 (violated by the code).  Round trip: serializing a built index
    whose metric is "L2" or "IP" (as it is for every index [BuildAll]
    built, by [BuildAll_Ok]) succeeds, but loading the resulting blob,
    into any object, ends in the "metric not supported" exception and
    leaves that object's index pointer as it was.  An object that was Empty
    therefore still refuses [Count] and [Dim] instead of answering them
    like the original. *)
Theorem Load_Serialize_rejected (self target : IndexAnnoy) :
  Built self →
  metric_type_ self = Metric_L2 ∨ metric_type_ self = Metric_IP →
  ∃ blob : BinarySet,
    Serialize self = (Ok blob, self)
    ∧ raises UnsupportedMetric (Load blob target).1
    ∧ index_ (Load blob target).2 = index_ target
    ∧ (Empty target →
       raises NotInitialized (Count (Load blob target).2).1
       ∧ raises NotInitialized (Dim (Load blob target).2).1).
Proof.
  intros [a Ha] Hmetric. eexists. split; [by apply Built_Serialize|].
  erewrite Load_metric_mismatch.
  - simpl. split; [apply raises_unsupported|]. split; [done|].
    intros He. run. unfold Empty in He. by rewrite He.
  - rewrite lookup_insert_ne, lookup_insert_ne, lookup_insert_eq; done.
  - rewrite lookup_insert_ne, lookup_insert_eq; done.
  - by rewrite length_uint64_bytes.
  - rewrite length_string_bytes. by destruct Hmetric as [-> | ->].
Qed.

(** C2 (violated by the code).  A blob whose metric section holds exactly
    the bytes of "L2" or of "IP", next to a dim section of at most 8
    bytes, is refused: the extra character [Load] gives [metric_type_] makes both
    comparisons fail, and the call ends in "metric not supported" without
    creating an index, whatever the object held before. *)
Theorem Load_rejects_supported_metric_names
    (blob : BinarySet) (self : IndexAnnoy) (name : string) (dim_data : list byte) :
  name = Metric_L2 ∨ name = Metric_IP →
  blob !! "annoy_metric_type" = Some (string_bytes name) →
  blob !! "annoy_dim" = Some dim_data →
  length dim_data ≤ 8 →
  raises UnsupportedMetric (Load blob self).1
  ∧ String.length (metric_type_ (Load blob self).2) = 3
  ∧ index_ (Load blob self).2 = index_ self.
Proof.
  intros Hname Hm Hd Hlen.
  erewrite Load_metric_mismatch; [|done|done|done|].
  - simpl. split; [apply raises_unsupported|]. split; [|done].
    rewrite length_loaded_metric_type, length_string_bytes.
    by destruct Hname as [-> | ->].
  - rewrite length_string_bytes. by destruct Hname as [-> | ->].
Qed.

(** C6 (violated by the code).  [Load] never compares the size of the dim
    section with the 8 bytes of the integer it fills.  A longer section is
    copied past the end of that integer; a shorter one leaves it partly
    unwritten, and the call either reads it all the same or stops on the
    metric name.  In neither case is the blob rejected as corrupt. *)
Theorem Load_dim_section_unchecked
    (blob : BinarySet) (self : IndexAnnoy) (m d : list byte) :
  blob !! "annoy_metric_type" = Some m →
  blob !! "annoy_dim" = Some d →
  (8 < length d → (Load blob self).1 = Fault OutOfBoundsWrite)
  ∧ (length d < 8 →
     (Load blob self).1 = Fault IndeterminateRead
     ∨ raises UnsupportedMetric (Load blob self).1).
Proof.
  intros Hm Hd. split; intros Hlen; run; rewrite Hm; simpl; rewrite Hd; simpl;
    unfold memcpy_uint64; repeat case_decide; try lia; simpl; [done|].
  destruct (String.eqb (loaded_metric_type m self) Metric_L2); simpl; [by left|].
  destruct (String.eqb (loaded_metric_type m self) Metric_IP); simpl; [by left|].
  right. apply raises_unsupported.
Qed.

(** Loops over a body that only reads the object. *)
Lemma mapM_lift_state {A B} (f : A → outcome B) (l : list A) (self : IndexAnnoy) :
  (mapM (M := M) (fun x => lift (f x)) l self).2 = self.
Proof.
  induction l as [|x l IH]; [done|].
  simpl. unfold mbind, M_bind, bind, lift at 1. destruct (f x); simpl; [|done..].
  destruct (mapM (M := M) _ l self) as [[ys| |] self'] eqn:E; simpl in *; by subst.
Qed.

Lemma mapM_lift_no_throw {A B} (f : A → outcome B) (l : list A) (self : IndexAnnoy) :
  (∀ x msg, f x ≠ Throw msg) →
  ∀ msg, (mapM (M := M) (fun x => lift (f x)) l self).1 ≠ Throw msg.
Proof.
  intros Hf. induction l as [|x l IH]; intros msg; [done|].
  simpl. unfold mbind, M_bind, bind, lift at 1.
  destruct (f x) eqn:Ex; simpl; [|by destruct (Hf _ _ Ex)|done].
  destruct (mapM (M := M) _ l self) as [[ys| |] self'] eqn:E; simpl in *; [done| |done].
  intros [= <-]. by eapply IH.
Qed.

Lemma mapM_lift_Ok {A B} (f : A → outcome B) (l : list A) (self : IndexAnnoy) (ys : list B) :
  (mapM (M := M) (fun x => lift (f x)) l self).1 = Ok ys →
  Forall2 (fun x y => f x = Ok y) l ys.
Proof.
  revert ys. induction l as [|x l IH]; intros ys.
  - simpl. intros [= <-]. constructor.
  - simpl. unfold mbind, M_bind, bind, lift at 1.
    destruct (f x) eqn:Ex; simpl; [|done..].
    destruct (mapM (M := M) _ l self) as [[zs| |] self'] eqn:E; simpl in *; [|done..].
    intros [= <-]. constructor; [done|]. by apply IH.
Qed.

Lemma query_row_no_throw (a : AnnoyIndex) blacklist p_data dim k search_k i msg :
  query_row a blacklist p_data dim k search_k i ≠ Throw msg.
Proof.
  unfold query_row, read_at. case_decide; [done|]. case_decide; [|done].
  by destruct (get_nns_by_vector _ _ _ _ _).
Qed.

Lemma query_row_Ok (a : AnnoyIndex) blacklist p_data dim k search_k i w block :
  read_at p_data (Z.of_nat i * dim) (get_dim a) = Ok w →
  query_row a blacklist p_data dim k search_k i = Ok block →
  block =
    (copy_from_vector (Z.to_nat k) (get_nns_by_vector a w k search_k blacklist).1,
     copy_from_vector (Z.to_nat k) (get_nns_by_vector a w k search_k blacklist).2).
Proof.
  unfold query_row. intros Hw. case_decide; [done|]. rewrite Hw.
  destruct (get_nns_by_vector _ _ _ _ _). by intros [= <-].
Qed.

Lemma query_row_lengths (a : AnnoyIndex) blacklist p_data dim k search_k i block :
  query_row a blacklist p_data dim k search_k i = Ok block →
  length block.1 = Z.to_nat k ∧ length block.2 = Z.to_nat k.
Proof.
  unfold query_row. case_decide; [done|]. destruct (read_at _ _ _); [|done..].
  destruct (get_nns_by_vector _ _ _ _ _). intros [= <-]. simpl.
  by rewrite !length_copy_from_vector.
Qed.

(** C3.  The lifecycle gate: on an Empty object [Serialize], [Query],
    [Count] and [Dim] each end in a "not initialized" exception and give no
    result; on a Built object none of the four raises it. *)
Theorem lifecycle_gate (self : IndexAnnoy) (ds : Dataset) (cfg : Config) :
  (Empty self →
     raises NotInitialized (Serialize self).1
     ∧ raises NotInitialized (Query ds cfg self).1
     ∧ raises NotInitialized (Count self).1
     ∧ raises NotInitialized (Dim self).1)
  ∧ (Built self →
     ¬ raises NotInitialized (Serialize self).1
     ∧ ¬ raises NotInitialized (Query ds cfg self).1
     ∧ ¬ raises NotInitialized (Count self).1
     ∧ ¬ raises NotInitialized (Dim self).1).
Proof.
  split.
  - intros He.
    destruct (Empty_not_initialized self ds cfg He) as (-> & -> & -> & ->).
    cbn. auto.
  - intros [a Ha]. rewrite (Built_Serialize self a Ha).
    split; [cbn; tauto|]. split; [|run; rewrite Ha; cbn; tauto].
    run. rewrite Ha. case_decide; [|cbn; tauto].
    pose proof (mapM_lift_no_throw
      (query_row a (bitset_ self) (ds_tensor ds) (ds_dim ds) (cfg_topk cfg) (cfg_search_k cfg))
      (seq 0 (Z.to_nat (ds_rows ds))) self) as Hno.
    destruct (mapM (M := M) _ _ self) as [[blocks|msg|ft] self']; simpl in *; [tauto| |tauto].
    intros _. eapply Hno; [|done]. intros. apply query_row_no_throw.
Qed.

(** C4.  On an Empty object, [BuildAll] with a metric name other than "L2"
    and "IP" ends in the "metric not supported" exception and leaves the
    object Empty: [Count], [Serialize] and [Query] go on refusing. *)
Theorem BuildAll_unsupported_metric (self : IndexAnnoy) (ds : Dataset) (cfg : Config) :
  Empty self →
  cfg_metric_type cfg ≠ Metric_L2 →
  cfg_metric_type cfg ≠ Metric_IP →
  (BuildAll ds cfg self).1 = Throw ("metric not supported " +:+ cfg_metric_type cfg)
  ∧ raises UnsupportedMetric (BuildAll ds cfg self).1
  ∧ Empty (BuildAll ds cfg self).2
  ∧ (∀ ds' cfg',
       raises NotInitialized (Count (BuildAll ds cfg self).2).1
       ∧ raises NotInitialized (Serialize (BuildAll ds cfg self).2).1
       ∧ raises NotInitialized (Query ds' cfg' (BuildAll ds cfg self).2).1).
Proof.
  intros He HL2 HIP.
  assert (Hrun : BuildAll ds cfg self =
                 (Throw ("metric not supported " +:+ cfg_metric_type cfg),
                  set_metric_type (cfg_metric_type cfg) self)).
  { unfold Empty in He. run. rewrite He. simpl.
    apply String.eqb_neq in HL2, HIP. by rewrite HL2, HIP. }
  rewrite Hrun. simpl. split; [done|]. split; [apply raises_unsupported|].
  assert (He' : Empty (set_metric_type (cfg_metric_type cfg) self)) by done.
  split; [done|]. intros ds' cfg'.
  destruct (Empty_not_initialized _ ds' cfg' He') as (-> & -> & -> & _).
  cbn. auto.
Qed.

(** C5.  [BuildAll] on a Built object returns at once, whatever the
    dataset and the configuration: no exception, and every member of the
    object (index, metric, cached size) is as before. *)
Theorem BuildAll_idempotent (self : IndexAnnoy) (ds : Dataset) (cfg : Config) :
  Built self → BuildAll ds cfg self = (Ok (), self).
Proof.
  intros Hb. run. by rewrite bool_decide_eq_true_2.
Qed.

(** C7 (violated by the code).  When the search pushes fewer than [k]
    neighbours for row [i], the slots of that row's [k]-cell block past
    the last neighbour are not given a sentinel: [Query] copies [k] cells
    out of each vector regardless of its size, so those slots of the id and
    distance buffers hold storage nobody wrote. *)
Theorem Query_short_row_unwritten
    (self self' : IndexAnnoy) (a : AnnoyIndex) (ds : Dataset) (cfg : Config)
    (r : QueryResult) (i j : nat) (w : list float) :
  index_ self = Some a →
  Query ds cfg self = (Ok r, self') →
  i < Z.to_nat (ds_rows ds) →
  read_at (ds_tensor ds) (Z.of_nat i * ds_dim ds) (get_dim a) = Ok w →
  j < Z.to_nat (cfg_topk cfg) →
  let nn := get_nns_by_vector a w (cfg_topk cfg) (cfg_search_k cfg) (bitset_ self) in
  (length nn.1 ≤ j → res_ids r !! (i * Z.to_nat (cfg_topk cfg) + j) = Some Uninit)
  ∧ (length nn.2 ≤ j → res_distance r !! (i * Z.to_nat (cfg_topk cfg) + j) = Some Uninit).
Proof.
  intros Ha HQ Hi Hw Hj nn. revert HQ. run. rewrite Ha.
  case_decide; [|done].
  set (row := query_row a (bitset_ self) (ds_tensor ds) (ds_dim ds)
                (cfg_topk cfg) (cfg_search_k cfg)).
  pose proof (mapM_lift_Ok row (seq 0 (Z.to_nat (ds_rows ds))) self) as Hall.
  destruct (mapM (M := M) _ _ self) as [[blocks|msg|ft] self'']; simpl in *; [|done..].
  intros [= <- _]. specialize (Hall blocks eq_refl). simpl.
  destruct (Forall2_lookup_l _ _ _ i i Hall) as (block & Hblock & Hrow);
    [by apply lookup_seq_lt|].
  apply (query_row_Ok _ _ _ _ _ _ _ w) in Hrow as Hshape; [|done].
  fold nn in Hshape.
  assert (Hlen : Forall (fun b => length b.1 = Z.to_nat (cfg_topk cfg)
                                  ∧ length b.2 = Z.to_nat (cfg_topk cfg)) blocks).
  { apply Forall_forall. intros b Hb.
    apply list_elem_of_lookup in Hb as [n Hn].
    destruct (Forall2_lookup_r _ _ _ _ _ Hall Hn) as (x & _ & Hx).
    by eapply query_row_lengths. }
  split; intros Hshort.
  - rewrite (lookup_concat_blocks _ _ _ _ block.1); [| |by rewrite list_lookup_fmap, Hblock|done].
    + subst block. simpl. by apply copy_from_vector_uninit.
    + apply Forall_fmap. eapply Forall_impl; [done|]. by intros ? [? ?].
  - rewrite (lookup_concat_blocks _ _ _ _ block.2); [| |by rewrite list_lookup_fmap, Hblock|done].
    + subst block. simpl. by apply copy_from_vector_uninit.
    + apply Forall_fmap. eapply Forall_impl; [done|]. by intros ? [? ?].
Qed.

(** C8 (as amended).  On a Built object whose size was never computed
    ([index_size_] still -1) and fits the [int64_t] it is returned in,
    [IndexSize] returns [Dim() * Count() * 4] and stores it in
    [index_size_], leaving the index, the metric name and the blacklist as
    they were; a second call returns the same value and changes nothing.
    In general a call on an object that holds a cached value returns that
    value and changes nothing, without consulting the index. *)
Theorem IndexSize_formula_cached (self : IndexAnnoy) (a : AnnoyIndex) :
  index_ self = Some a →
  index_size_ self = (-1)%Z →
  (- 2 ^ 63 ≤ get_dim a * get_n_items a * 4 < 2 ^ 63)%Z →
  ∃ dim count : Z,
    Dim self = (Ok dim, self)
    ∧ Count self = (Ok count, self)
    ∧ (IndexSize self).1 = Ok (dim * count * 4)%Z
    ∧ index_size_ (IndexSize self).2 = (dim * count * 4)%Z
    ∧ index_ (IndexSize self).2 = index_ self
    ∧ metric_type_ (IndexSize self).2 = metric_type_ self
    ∧ bitset_ (IndexSize self).2 = bitset_ self
    ∧ IndexSize (IndexSize self).2 = (Ok (dim * count * 4)%Z, (IndexSize self).2)
    ∧ (∀ later : IndexAnnoy,
         index_size_ later ≠ (-1)%Z →
         IndexSize later = (Ok (index_size_ later), later)).
Proof.
  intros Ha Hnew Hfit. exists (get_dim a), (get_n_items a).
  assert (Hcached : ∀ later : IndexAnnoy,
            index_size_ later ≠ (-1)%Z →
            IndexSize later = (Ok (index_size_ later), later)).
  { intros later Hlater. run. by case_decide. }
  assert (Hrun : IndexSize self =
                 (Ok (get_dim a * get_n_items a * 4)%Z,
                  {| index_ := index_ self; metric_type_ := metric_type_ self;
                     index_size_ := (get_dim a * get_n_items a * 4)%Z;
                     bitset_ := bitset_ self |})).
  { run. rewrite Hnew. simpl. repeat (rewrite Ha; simpl).
    unfold sizeof_float, set_index_size.
    rewrite to_int64_mul_uint64.
    assert (to_int64 (get_dim a * get_n_items a) = get_dim a * get_n_items a)%Z as ->
      by (apply to_int64_small; lia).
    rewrite to_int64_small by done. by rewrite Ha. }
  split; [by run; rewrite Ha|]. split; [by run; rewrite Ha|].
  rewrite Hrun. simpl. repeat (split; [done|]).
  split; [|done]. apply Hcached. simpl. lia.
Qed.

(** C9.  On an Empty object whose size was never computed, [IndexSize]
    gives no value: it ends in the "not initialized" exception raised by
    [Dim], and the cache stays unset. *)
Theorem IndexSize_Empty (self : IndexAnnoy) :
  Empty self →
  index_size_ self = (-1)%Z →
  IndexSize self = (Throw "index not initialize", self)
  ∧ raises NotInitialized (IndexSize self).1
  ∧ (Dim self).1 = Throw "index not initialize".
Proof.
  unfold Empty. intros He Hnew.
  assert (Hrun : IndexSize self = (Throw "index not initialize", self)).
  { run. rewrite Hnew. simpl. by rewrite He. }
  rewrite Hrun. split; [done|]. split; [done|]. run. by rewrite He.
Qed.

End with_lib.
End IndexAnnoy_spec.

(** ** Properties of [DescribeTableRequest] *)

Module DescribeTableRequest_spec.
Import server.

(** C10 (as amended).  [OnExecute] is atomic in its output.  Whenever
    the returned status is not OK, and whenever an exception leaves the
    call, [schema_] is as it was; [schema_] differs from its old value
    only on the success path, where the four fields are assigned and
    [Status::OK()] is returned.  An exception derived from
    [std::exception] that the [try] block raises is turned into a
    [SERVER_UNEXPECTED_ERROR] status; the exceptions that do leave the call
    are those of the declarations ahead of the [try] block and, from the
    [try] block, those of other types. *)
Theorem OnExecute_output_atomic
    (env : Collaborators) (name : string) (schema_ : CollectionSchema) :
  (∀ status, (OnExecute env name schema_).1 = Returns status →
     ok status = false → (OnExecute env name schema_).2 = schema_)
  ∧ (∀ e, (OnExecute env name schema_).1 = Raises e →
       (OnExecute env name schema_).2 = schema_)
  ∧ ((OnExecute env name schema_).2 = schema_
     ∨ ∃ table_schema,
         success_path env name table_schema
         ∧ OnExecute env name schema_ = (Returns Status_OK, described table_schema))
  ∧ (prologue env name = Returns () →
     ∀ ex, (try_block env name schema_).1 = Raises (std_exception ex) →
       OnExecute env name schema_
       = (Returns {| code := SERVER_UNEXPECTED_ERROR env; message := ex |}, schema_))
  ∧ (∀ e, prologue env name = Raises e →
       OnExecute env name schema_ = (Raises e, schema_))
  ∧ (prologue env name = Returns () →
     (try_block env name schema_).1 = Raises other_exception →
     OnExecute env name schema_ = (Raises other_exception, schema_))
  ∧ (∀ e, (OnExecute env name schema_).1 = Raises e →
       prologue env name = Raises e
       ∨ (prologue env name = Returns ()
          ∧ e = other_exception
          ∧ (try_block env name schema_).1 = Raises other_exception)).
Proof.
  unfold OnExecute, success_path.
  destruct (prologue env name) as [[]|e0] eqn:Hprologue; simpl;
    [|repeat split; intros; simplify_eq; auto].
  unfold try_block.
  destruct (ValidateCollectionName env name) as [valid|[what|]] eqn:Hvalid; simpl;
    [|repeat split; intros; simplify_eq; auto..].
  destruct (ok valid) eqn:Hok; simpl;
    [|repeat split; intros; simplify_eq; auto].
  destruct (DescribeTable env _) as [[found table_schema]|[what|]] eqn:Hdescribe; simpl;
    [|repeat split; intros; simplify_eq; auto..].
  destruct (fiu_throw_std_exception env) eqn:Hthrow; simpl;
    [repeat split; intros; simplify_eq; auto|].
  destruct (ok (if fiu_describe_table_fail env then _ else found)) eqn:Hfound; simpl.
  - destruct (String.eqb (owner_table_ table_schema) "") eqn:Howner; simpl;
      [|repeat split; intros; simplify_eq; auto].
    apply String.eqb_eq in Howner.
    split; [by intros ? [= <-]|]. split; [done|].
    split; [|repeat split; intros; simplify_eq].
    right. exists table_schema. split; [|done]. by exists valid, found.
  - destruct (_ =? _)%Z; simpl; repeat split; intros; simplify_eq; auto.
Qed.

End DescribeTableRequest_spec.

(** ** The properties at the concrete objects *)

Module witnesses.
Import cxx knowhere server examples IndexAnnoy_spec DescribeTableRequest_spec.
#[local] Existing Instance annoy_ref.lib.

Lemma Built_built : Built built.
Proof. exists built_index. reflexivity. Defined.

Lemma Load_Serialize_rejected_witness :
  ∃ blob : BinarySet,
    Serialize built = (Ok blob, built)
    ∧ raises UnsupportedMetric (Load blob new_IndexAnnoy).1
    ∧ index_ (Load blob new_IndexAnnoy).2 = index_ (new_IndexAnnoy (lib := annoy_ref.lib))
    ∧ (Empty (new_IndexAnnoy (lib := annoy_ref.lib)) →
       raises NotInitialized (Count (Load blob new_IndexAnnoy).2).1
       ∧ raises NotInitialized (Dim (Load blob new_IndexAnnoy).2).1).
Proof.
  apply (Load_Serialize_rejected built new_IndexAnnoy).
  - exact Built_built.
  - left. reflexivity.
Defined.

Lemma Load_rejects_supported_metric_names_witness :
  raises UnsupportedMetric (Load l2_blob new_IndexAnnoy).1
  ∧ String.length (knowhere.metric_type_ (Load l2_blob new_IndexAnnoy).2) = 3
  ∧ index_ (Load l2_blob new_IndexAnnoy).2 = index_ (new_IndexAnnoy (lib := annoy_ref.lib)).
Proof.
  apply (Load_rejects_supported_metric_names l2_blob new_IndexAnnoy "L2" (uint64_bytes 2)).
  - left. reflexivity.
  - vm_compute. reflexivity.
  - vm_compute. reflexivity.
  - vm_compute. lia.
Defined.

Lemma lifecycle_gate_witness :
  (raises NotInitialized (Serialize new_IndexAnnoy).1
   ∧ raises NotInitialized (Query one_item l2_config new_IndexAnnoy).1
   ∧ raises NotInitialized (Count new_IndexAnnoy).1
   ∧ raises NotInitialized (Dim new_IndexAnnoy).1)
  ∧ (¬ raises NotInitialized (Serialize built).1
     ∧ ¬ raises NotInitialized (Query one_item l2_config built).1
     ∧ ¬ raises NotInitialized (Count built).1
     ∧ ¬ raises NotInitialized (Dim built).1).
Proof.
  split.
  - apply (lifecycle_gate new_IndexAnnoy one_item l2_config). reflexivity.
  - apply (lifecycle_gate built one_item l2_config). exact Built_built.
Defined.

Lemma BuildAll_unsupported_metric_witness :
  (BuildAll one_item cosine_config new_IndexAnnoy).1 = Throw "metric not supported cosine"
  ∧ raises UnsupportedMetric (BuildAll one_item cosine_config new_IndexAnnoy).1
  ∧ Empty (BuildAll one_item cosine_config new_IndexAnnoy).2
  ∧ (∀ ds' cfg',
       raises NotInitialized (Count (BuildAll one_item cosine_config new_IndexAnnoy).2).1
       ∧ raises NotInitialized (Serialize (BuildAll one_item cosine_config new_IndexAnnoy).2).1
       ∧ raises NotInitialized
           (Query ds' cfg' (BuildAll one_item cosine_config new_IndexAnnoy).2).1).
Proof.
  apply (BuildAll_unsupported_metric new_IndexAnnoy one_item cosine_config).
  - reflexivity.
  - vm_compute. discriminate.
  - vm_compute. discriminate.
Defined.

Lemma BuildAll_idempotent_witness :
  BuildAll one_item cosine_config built = (Ok (), built).
Proof.
  apply (BuildAll_idempotent built one_item cosine_config). exact Built_built.
Defined.

Lemma Load_dim_section_unchecked_witness :
  (Load long_dim_blob new_IndexAnnoy (lib := annoy_ref.lib)).1 = Fault OutOfBoundsWrite.
Proof.
  apply (Load_dim_section_unchecked long_dim_blob new_IndexAnnoy
           (string_bytes "L2") (uint64_bytes 2 ++ uint64_bytes 0)).
  - vm_compute. reflexivity.
  - vm_compute. reflexivity.
  - vm_compute. lia.
Defined.

Lemma Query_short_row_unwritten_witness :
  let r := {| res_ids := [Init 7%Z; Uninit]; res_distance := [Init 0%Z; Uninit] |} in
  Query one_item l2_config built = (Ok r, built)
  ∧ res_ids r !! 1 = Some Uninit
  ∧ res_distance r !! 1 = Some Uninit.
Proof.
  intros r.
  assert (HQ : Query one_item l2_config built = (Ok r, built)) by reflexivity.
  split; [exact HQ|].
  destruct (Query_short_row_unwritten built built built_index one_item l2_config
              r 0 1 [3; 4]%Z) as [Hids Hdist].
  - reflexivity.
  - exact HQ.
  - vm_compute. lia.
  - vm_compute. reflexivity.
  - vm_compute. lia.
  - split; [apply Hids | apply Hdist]; vm_compute; lia.
Defined.

Lemma IndexSize_formula_cached_witness :
  ∃ dim count : Z,
    Dim built = (Ok dim, built)
    ∧ Count built = (Ok count, built)
    ∧ (IndexSize built).1 = Ok (dim * count * 4)%Z
    ∧ index_size_ (IndexSize built).2 = (dim * count * 4)%Z
    ∧ index_ (IndexSize built).2 = index_ built
    ∧ knowhere.metric_type_ (IndexSize built).2 = knowhere.metric_type_ built
    ∧ bitset_ (IndexSize built).2 = bitset_ built
    ∧ IndexSize (IndexSize built).2 = (Ok (dim * count * 4)%Z, (IndexSize built).2)
    ∧ (∀ later : IndexAnnoy,
         index_size_ later ≠ (-1)%Z →
         IndexSize later = (Ok (index_size_ later), later)).
Proof.
  apply (IndexSize_formula_cached built built_index).
  - reflexivity.
  - reflexivity.
  - vm_compute. split; [discriminate | reflexivity].
Defined.

(** C8 as first stated fails: [sized] has answered [IndexSize] with 8;
    loading a two-item index into it succeeds and leaves a Built object of
    dimension 2 with 2 items, on which [IndexSize] still answers 8 and not
    2 * 2 * 4. *)
Lemma IndexSize_stale_after_Load :
  (IndexSize built).1 = Ok 8%Z
  ∧ (Load two_items_blob sized).1 = Ok ()
  ∧ Built reloaded
  ∧ (Dim reloaded).1 = Ok 2%Z
  ∧ (Count reloaded).1 = Ok 2%Z
  ∧ (IndexSize reloaded).1 = Ok 8%Z
  ∧ (IndexSize reloaded).1 ≠ Ok (2 * 2 * 4)%Z.
Proof.
  split; [reflexivity|]. split; [reflexivity|].
  split; [by exists two_items_index|].
  split; [reflexivity|]. split; [reflexivity|]. split; [reflexivity|].
  discriminate.
Qed.

Lemma IndexSize_Empty_witness :
  IndexSize new_IndexAnnoy = (Throw "index not initialize", new_IndexAnnoy)
  ∧ raises NotInitialized (IndexSize new_IndexAnnoy).1
  ∧ (Dim (new_IndexAnnoy (lib := annoy_ref.lib))).1 = Throw "index not initialize".
Proof.
  apply (IndexSize_Empty new_IndexAnnoy); reflexivity.
Defined.

Lemma OnExecute_output_atomic_witness :
  (OnExecute env "" blank_schema).2 = blank_schema
  ∧ (OnExecute throwing_env "vectors" blank_schema).2 = blank_schema
  ∧ OnExecute env "vectors" blank_schema
    = (Returns Status_OK,
       {| collection_name_ := "vectors"; dimension_ := 128;
          index_file_size_ := 1024; server.metric_type_ := 1 |}).
Proof.
  split; [|split].
  - destruct (OnExecute_output_atomic env "" blank_schema) as (H & _).
    apply (H {| code := 30101; message := "Collection name should not be empty." |});
      reflexivity.
  - destruct (OnExecute_output_atomic throwing_env "vectors" blank_schema) as (_ & H & _).
    apply (H other_exception). reflexivity.
  - destruct (OnExecute_output_atomic env "vectors" blank_schema) as (_ & _ & [H | H] & _).
    + discriminate H.
    + reflexivity.
Defined.

(** C10 as first stated fails in its last clause: when the name
    validator throws an object that is not a [std::exception], the handler
    does not stop it and the exception leaves [OnExecute]. *)
Lemma OnExecute_exception_propagates :
  OnExecute throwing_env "vectors" blank_schema = (Raises other_exception, blank_schema)
  ∧ ¬ (∃ status, (OnExecute throwing_env "vectors" blank_schema).1 = Returns status).
Proof.
  split; [reflexivity|]. by intros [status H].
Qed.

End witnesses.

(** ** Further facts about the C++ vocabulary *)

Module more_cxx_facts.
Import cxx cxx_facts.

Lemma Z_of_byte_of_Z (z : Z) : Z_of_byte (byte_of_Z z) = (z mod 256)%Z.
Proof.
  unfold Z_of_byte, byte_of_Z.
  assert (Hr : (0 ≤ z mod 256 < 256)%Z) by (apply Z.mod_pos_bound; lia).
  destruct (Byte.of_N (Z.to_N (z mod 256))) as [b|] eqn:E; simpl.
  - apply Byte.to_of_N in E. rewrite E. lia.
  - apply Byte.of_N_None_iff in E. lia.
Qed.

Lemma uint64_of_bytes_shifts (u : Z) (n k : nat) :
  uint64_of_bytes ((fun i : nat => byte_of_Z (Z.shiftr u (8 * Z.of_nat i))) <$> seq k n)
  = (Z.shiftr u (8 * Z.of_nat k) mod 256 ^ Z.of_nat n)%Z.
Proof.
  revert k. induction n as [|n IH]; intros k.
  - simpl. by rewrite Z.mod_1_r.
  - cbn [seq fmap list_fmap uint64_of_bytes]. change (list_fmap _ _ ?f ?l) with (f <$> l).
    rewrite IH, Z_of_byte_of_Z.
    replace (8 * Z.of_nat (S k))%Z with (8 * Z.of_nat k + 8)%Z by lia.
    rewrite <- Z.shiftr_shiftr by lia.
    rewrite (Z.shiftr_div_pow2 _ 8) by lia.
    replace (256 ^ Z.of_nat (S n))%Z with (256 * 256 ^ Z.of_nat n)%Z
      by (rewrite Nat2Z.inj_succ, Z.pow_succ_r; lia).
    change (2 ^ 8)%Z with 256%Z.
    rewrite Z.rem_mul_r; [done|lia|]. apply Z.pow_pos_nonneg; lia.
Qed.

(** Decoding the eight bytes written for a 64-bit integer gives back its
    unsigned value. *)
Lemma uint64_of_bytes_uint64_bytes (z : Z) :
  uint64_of_bytes (uint64_bytes z) = to_uint64 z.
Proof.
  unfold uint64_bytes. rewrite uint64_of_bytes_shifts.
  change (8 * Z.of_nat 0)%Z with 0%Z. rewrite Z.shiftr_0_r.
  change (256 ^ Z.of_nat 8)%Z with (2 ^ 64)%Z.
  unfold to_uint64. by rewrite Z.mod_mod.
Qed.



End more_cxx_facts.

(** ** Further properties of [IndexAnnoy] *)

Module IndexAnnoy_more.
Import cxx cxx_facts more_cxx_facts knowhere IndexAnnoy_spec.

Section with_lib.
Context `{lib : AnnoyLib}.

(** X1.  [Serialize] on a Built object returns exactly the three sections
    "annoy_metric_type", "annoy_dim" and "annoy_index_data": the characters
    of [metric_type_] (as many bytes as its length), eight bytes for the
    dimension, and the library's index region.  No other name is present
    and the object is unchanged. *)
Theorem Serialize_sections (self : IndexAnnoy) (a : AnnoyIndex) :
  index_ self = Some a →
  ∃ blob : BinarySet,
    Serialize self = (Ok blob, self)
    ∧ blob !! "annoy_metric_type" = Some (string_bytes (metric_type_ self))
    ∧ length (string_bytes (metric_type_ self)) = String.length (metric_type_ self)
    ∧ (∃ dim_data, blob !! "annoy_dim" = Some dim_data ∧ length dim_data = 8)
    ∧ blob !! "annoy_index_data" = Some (get_index a)
    ∧ dom blob = ({["annoy_metric_type"; "annoy_dim"; "annoy_index_data"]} : gset string).
Proof.
  intros Ha. eexists. split; [by apply Built_Serialize|].
  split; [by rewrite lookup_insert_ne, lookup_insert_ne, lookup_insert_eq|].
  split; [apply length_string_bytes|].
  split; [eexists; split; [by rewrite lookup_insert_ne, lookup_insert_eq|done]|].
  split; [by rewrite lookup_insert_eq|].
  rewrite !dom_insert_L, dom_empty_L. set_solver.
Qed.

(** X2.  The dimension survives the byte encoding: what [Serialize] stores
    under "annoy_dim" for a Built object whose dimension is a non-negative
    64-bit number is read back by the copy in [Load] as that number. *)
Theorem Serialize_dim_decodes (self : IndexAnnoy) (a : AnnoyIndex) :
  index_ self = Some a →
  (0 ≤ get_dim a < 2 ^ 64)%Z →
  ∃ (blob : BinarySet) (dim_data : list byte),
    Serialize self = (Ok blob, self)
    ∧ blob !! "annoy_dim" = Some dim_data
    ∧ memcpy_uint64 dim_data = Ok (Some (get_dim a)).
Proof.
  intros Ha Hdim. eexists _, _. split; [by apply Built_Serialize|].
  split; [by rewrite lookup_insert_ne, lookup_insert_eq|].
  unfold memcpy_uint64. rewrite length_uint64_bytes.
  rewrite decide_False by lia. rewrite decide_True by done.
  rewrite uint64_of_bytes_uint64_bytes. unfold to_uint64.
  by rewrite Z.mod_small.
Qed.

(** X3.  [Load] never returns normally on an object whose [metric_type_] is no
    longer than the metric section of the blob, in particular on a freshly
    constructed one: whatever the blob holds, the call ends in an
    exception or a fault. *)
Theorem Load_never_succeeds_on_short_name (blob : BinarySet) (self : IndexAnnoy) :
  (∀ m, blob !! "annoy_metric_type" = Some m → String.length (metric_type_ self) ≤ length m) →
  (Load blob self).1 ≠ Ok ().
Proof.
  intros Hshort.
  destruct (blob !! "annoy_metric_type") as [m|] eqn:Hm;
    [|by run; rewrite Hm].
  specialize (Hshort m eq_refl).
  destruct (blob !! "annoy_dim") as [d|] eqn:Hd;
    [|by run; rewrite Hm; simpl; rewrite Hd].
  destruct (decide (8 < length d)) as [Hlong|Hfit].
  { run. rewrite Hm. simpl. rewrite Hd. simpl.
    unfold memcpy_uint64. by rewrite decide_True. }
  destruct (decide (length m = 1)) as [Hone|Hne].
  - destruct m as [|b [|? ?]]; simpl in *; try lia.
    assert (Hneq : ∀ name, name = Metric_L2 ∨ name = Metric_IP →
                     String.eqb (loaded_metric_type [b] self) name = false).
    { intros name Hname. apply String.eqb_neq. intros Heq.
      assert (Hl : String.length (metric_type_ self) ≤ 1) by done.
      unfold loaded_metric_type in Heq. simpl in Heq.
      destruct (metric_type_ self) as [|c0 [|c1 rest]]; simpl in *; [| |lia];
        destruct Hname as [-> | ->]; discriminate Heq. }
    run. rewrite Hm. simpl. rewrite Hd. simpl.
    destruct (memcpy_uint64 d); simpl; [|done..].
    rewrite (Hneq Metric_L2), (Hneq Metric_IP) by auto. done.
  - rewrite (Load_metric_mismatch blob self m d) by (done || lia). done.
Qed.

(** X4.  When the name [Load] has put together does compare equal to "L2" or
    "IP", the object's index is replaced by a new one of the decoded
    dimension before the region is parsed.  If [load_index] then reports
    an error, [Load] throws its text but the object is left Built, holding
    the index [load_index] gave up on; an index held before is gone. *)
Theorem Load_failure_leaves_Built
    (blob : BinarySet) (self : IndexAnnoy) (m d data : list byte)
    (D : Distance) (a' : AnnoyIndex) (error_msg : string) :
  blob !! "annoy_metric_type" = Some m →
  blob !! "annoy_dim" = Some d →
  blob !! "annoy_index_data" = Some data →
  length d = 8 →
  (loaded_metric_type m self = Metric_L2 ∧ D = Euclidean)
  ∨ (loaded_metric_type m self = Metric_IP ∧ D = DotProduct) →
  load_index data (make_index D (uint64_of_bytes d)) = (a', Some error_msg) →
  (Load blob self).1 = Throw error_msg
  ∧ index_ (Load blob self).2 = Some a'
  ∧ Built (Load blob self).2.
Proof.
  intros Hm Hd Hdata Hlen Hname Hload.
  assert (Hrun : Load blob self =
                 (Throw error_msg,
                  set_index a' (set_metric_type (loaded_metric_type m self) self))).
  { run. rewrite Hm. simpl. rewrite Hd. simpl.
    unfold memcpy_uint64. rewrite decide_False by lia. rewrite decide_True by done.
    simpl. destruct Hname as [[-> ->] | [-> ->]]; simpl;
      rewrite Hdata; simpl; by rewrite Hload. }
  rewrite Hrun. simpl. split; [done|]. split; [done|]. by eexists.
Qed.

(** X5.  A [Load] that stops on the metric name is not harmless to a Built
    object: the index is kept, so [Count] answers as before, but
    [metric_type_] has been overwritten, and a later [Serialize] writes a
    metric section one byte longer than the one of the rejected blob. *)
Theorem Load_rejection_overwrites_metric
    (blob : BinarySet) (self : IndexAnnoy) (a : AnnoyIndex) (m d : list byte) :
  index_ self = Some a →
  blob !! "annoy_metric_type" = Some m →
  blob !! "annoy_dim" = Some d →
  length d ≤ 8 →
  length m ≠ 1 →
  raises UnsupportedMetric (Load blob self).1
  ∧ Count (Load blob self).2 = (Ok (get_n_items a), (Load blob self).2)
  ∧ ∃ (blob' : BinarySet) (m' : list byte),
      Serialize (Load blob self).2 = (Ok blob', (Load blob self).2)
      ∧ blob' !! "annoy_metric_type" = Some m'
      ∧ length m' = length m + 1.
Proof.
  intros Ha Hm Hd Hlen Hne.
  rewrite (Load_metric_mismatch blob self m d) by done. simpl.
  split; [apply raises_unsupported|].
  split; [by run; rewrite Ha|].
  eexists _, _. split; [by apply Built_Serialize|].
  split; [by rewrite lookup_insert_ne, lookup_insert_ne, lookup_insert_eq|].
  simpl. by rewrite length_string_bytes, length_loaded_metric_type.
Qed.









(** X11.  [Serialize], [Count], [Dim] and [Query] only read the object: whatever
    they end in, every data member is as before the call. *)
Theorem readers_leave_object_unchanged (self : IndexAnnoy) (ds : Dataset) (cfg : Config) :
  (Serialize self).2 = self
  ∧ (Count self).2 = self
  ∧ (Dim self).2 = self
  ∧ (Query ds cfg self).2 = self.
Proof.
  repeat split.
  - run. destruct (index_ self); simpl; [|done]. by destruct (index_ self).
  - run. by destruct (index_ self).
  - run. by destruct (index_ self).
  - run. destruct (index_ self) as [a|]; [|done]. case_decide; [|done].
    pose proof (mapM_lift_state
      (query_row a (bitset_ self) (ds_tensor ds) (ds_dim ds) (cfg_topk cfg) (cfg_search_k cfg))
      (seq 0 (Z.to_nat (ds_rows ds))) self) as Hstate.
    by destruct (mapM (M := M) _ _ self) as [[blocks|msg|ft] self'']; simpl in *.
Qed.

End with_lib.
End IndexAnnoy_more.

(** ** Further properties of [DescribeTableRequest] *)

Module DescribeTableRequest_more.
Import server.

(** X12.  On the success path [OnExecute] returns [Status::OK()] and [schema_]
    holds what the database described: its collection id, dimension, index
    file size and metric type, whatever [schema_] held before. *)
Theorem OnExecute_success
    (env : Collaborators) (name : string) (schema_ : CollectionSchema)
    (table_schema : meta_CollectionSchema) :
  success_path env name table_schema →
  OnExecute env name schema_ = (Returns Status_OK, described table_schema).
Proof.
  intros (valid & found & Hprologue & Hvalid & Hok & Hdescribe & Hthrow & Hfound & Howner).
  unfold OnExecute, try_block.
  rewrite Hprologue, Hvalid, Hok. simpl. rewrite Hdescribe, Hthrow, Hfound. simpl.
  by rewrite Howner.
Qed.

(** X13.  The database's not-found code never reaches the caller: provided the
    name validator does not use it and it differs from success and from
    the three server codes, no status [OnExecute] returns carries
    [DB_NOT_FOUND]. *)
Theorem OnExecute_hides_DB_NOT_FOUND
    (env : Collaborators) (name : string) (schema_ : CollectionSchema) :
  (∀ status, ValidateCollectionName env name = Returns status →
             code status ≠ DB_NOT_FOUND env) →
  DB_NOT_FOUND env ≠ 0%Z →
  DB_NOT_FOUND env ≠ SERVER_UNEXPECTED_ERROR env →
  DB_NOT_FOUND env ≠ SERVER_TABLE_NOT_EXIST env →
  DB_NOT_FOUND env ≠ SERVER_INVALID_TABLE_NAME env →
  ∀ status, (OnExecute env name schema_).1 = Returns status →
            code status ≠ DB_NOT_FOUND env.
Proof.
  intros Hvalidator H0 Hunexpected Hnotexist Hinvalid status.
  unfold OnExecute, try_block.
  destruct (prologue env name) as [[]|e0]; simpl; [|done].
  destruct (ValidateCollectionName env name) as [valid|[what|]] eqn:Hvalid; simpl;
    [|by intros [= <-]|done].
  destruct (ok valid); simpl; [|intros [= <-]; by apply Hvalidator].
  destruct (DescribeTable env _) as [[found table_schema]|[what|]]; simpl;
    [|by intros [= <-]|done].
  destruct (fiu_throw_std_exception env); simpl; [by intros [= <-]|].
  destruct (ok (if fiu_describe_table_fail env then _ else found)); simpl.
  - destruct (String.eqb (owner_table_ table_schema) ""); simpl; by intros [= <-].
  - destruct (_ =? _)%Z eqn:Hcode; simpl; intros [= <-]; simpl; [done|].
    by apply Z.eqb_neq in Hcode.
Qed.

(** X14.  The status [OnExecute] returns does not depend on what [schema_] held,
    and neither does the output: started on two different values of
    [schema_], the call either leaves both as they were or stores the same
    value in both. *)
Theorem OnExecute_ignores_old_schema
    (env : Collaborators) (name : string) (schema1 schema2 : CollectionSchema) :
  (OnExecute env name schema1).1 = (OnExecute env name schema2).1
  ∧ (((OnExecute env name schema1).2 = schema1 ∧ (OnExecute env name schema2).2 = schema2)
     ∨ (OnExecute env name schema1).2 = (OnExecute env name schema2).2).
Proof.
  unfold OnExecute, try_block.
  destruct (prologue env name) as [[]|e0]; simpl; [|by auto].
  destruct (ValidateCollectionName env name) as [valid|[what|]]; simpl; [|by auto..].
  destruct (ok valid); simpl; [|by auto].
  destruct (DescribeTable env _) as [[found table_schema]|[what|]]; simpl; [|by auto..].
  destruct (fiu_throw_std_exception env); simpl; [by auto|].
  destruct (ok (if fiu_describe_table_fail env then _ else found)); simpl.
  - destruct (String.eqb (owner_table_ table_schema) ""); simpl; by auto.
  - destruct (_ =? _)%Z; simpl; by auto.
Qed.

(** X15.  With either fail point enabled the request cannot succeed: provided
    the two server codes involved are not the success code, every status
    [OnExecute] returns is not OK, and [schema_] is left as it was. *)
Theorem OnExecute_fail_points
    (env : Collaborators) (name : string) (schema_ : CollectionSchema) :
  fiu_describe_table_fail env = true ∨ fiu_throw_std_exception env = true →
  SERVER_UNEXPECTED_ERROR env ≠ 0%Z →
  SERVER_TABLE_NOT_EXIST env ≠ 0%Z →
  (∀ status, (OnExecute env name schema_).1 = Returns status → ok status = false)
  ∧ (OnExecute env name schema_).2 = schema_.
Proof.
  intros Hfiu Hunexpected Hnotexist.
  apply Z.eqb_neq in Hunexpected as Hu. apply Z.eqb_neq in Hnotexist as Hn.
  unfold OnExecute, try_block.
  destruct (prologue env name) as [[]|e0]; simpl; [|done].
  destruct (ValidateCollectionName env name) as [valid|[what|]]; simpl;
    [|split; [by intros ? [= <-]|done]|done].
  destruct (ok valid) eqn:Hvalid; simpl; [|split; [by intros ? [= <-]|done]].
  destruct (DescribeTable env _) as [[found table_schema]|[what|]]; simpl;
    [|split; [by intros ? [= <-]|done]|done].
  destruct (fiu_throw_std_exception env); simpl; [split; [by intros ? [= <-]|done]|].
  destruct Hfiu as [-> | ?]; [|done].
  assert (ok {| code := SERVER_UNEXPECTED_ERROR env; message := "" |} = false) as ->
    by done.
  simpl. destruct (SERVER_UNEXPECTED_ERROR env =? DB_NOT_FOUND env)%Z; simpl;
    (split; [intros ? [= <-]; unfold ok; simpl; by rewrite ?Hu, ?Hn|done]).
Qed.

End DescribeTableRequest_more.

(** ** The further properties at the concrete objects *)

Module more_witnesses.
Import cxx knowhere server examples.
Import IndexAnnoy_spec IndexAnnoy_more DescribeTableRequest_more.
#[local] Existing Instance annoy_ref.lib.

Lemma index_built : index_ built = Some built_index.
Proof. reflexivity. Defined.

Lemma Serialize_sections_witness :
  ∃ blob : BinarySet,
    Serialize built = (Ok blob, built)
    ∧ blob !! "annoy_metric_type" = Some (string_bytes (knowhere.metric_type_ built))
    ∧ length (string_bytes (knowhere.metric_type_ built))
      = String.length (knowhere.metric_type_ built)
    ∧ (∃ dim_data, blob !! "annoy_dim" = Some dim_data ∧ length dim_data = 8)
    ∧ blob !! "annoy_index_data" = Some (get_index built_index)
    ∧ dom blob = ({["annoy_metric_type"; "annoy_dim"; "annoy_index_data"]} : gset string).
Proof. apply (Serialize_sections built built_index). exact index_built. Defined.

Lemma Serialize_dim_decodes_witness :
  ∃ (blob : BinarySet) (dim_data : list byte),
    Serialize built = (Ok blob, built)
    ∧ blob !! "annoy_dim" = Some dim_data
    ∧ memcpy_uint64 dim_data = Ok (Some (get_dim built_index)).
Proof.
  apply (Serialize_dim_decodes built built_index).
  - exact index_built.
  - vm_compute. split; [discriminate | reflexivity].
Defined.

Lemma Load_never_succeeds_on_short_name_witness :
  (Load l2_blob (new_IndexAnnoy (lib := annoy_ref.lib))).1 ≠ Ok ().
Proof.
  apply (Load_never_succeeds_on_short_name l2_blob new_IndexAnnoy).
  intros m _. simpl. lia.
Defined.

Lemma Load_failure_leaves_Built_witness :
  (Load short_metric_blob built).1 = Throw "Index size is not a multiple of vector size"
  ∧ index_ (Load short_metric_blob built).2 = Some (make_index Euclidean 2)
  ∧ Built (Load short_metric_blob built).2.
Proof.
  apply (Load_failure_leaves_Built short_metric_blob built
           (string_bytes "L") (uint64_bytes 2) (string_bytes "?") Euclidean).
  - vm_compute. reflexivity.
  - vm_compute. reflexivity.
  - vm_compute. reflexivity.
  - reflexivity.
  - left. split; reflexivity.
  - reflexivity.
Defined.

Lemma Load_rejection_overwrites_metric_witness :
  raises UnsupportedMetric (Load cosine_blob built).1
  ∧ Count (Load cosine_blob built).2 = (Ok (get_n_items built_index), (Load cosine_blob built).2)
  ∧ ∃ (blob' : BinarySet) (m' : list byte),
      Serialize (Load cosine_blob built).2 = (Ok blob', (Load cosine_blob built).2)
      ∧ blob' !! "annoy_metric_type" = Some m'
      ∧ length m' = length (string_bytes "cosine") + 1.
Proof.
  apply (Load_rejection_overwrites_metric cosine_blob built built_index
           (string_bytes "cosine") (uint64_bytes 2)).
  - exact index_built.
  - vm_compute. reflexivity.
  - vm_compute. reflexivity.
  - vm_compute. lia.
  - vm_compute. lia.
Defined.


Lemma BuildAll_Ok_witness :
  Built (BuildAll three_items l2_config new_IndexAnnoy).2
  ∧ knowhere.metric_type_ (BuildAll three_items l2_config new_IndexAnnoy).2
    = cfg_metric_type l2_config
  ∧ (cfg_metric_type l2_config = Metric_L2 ∨ cfg_metric_type l2_config = Metric_IP).
Proof.
  apply (BuildAll_Ok new_IndexAnnoy three_items l2_config); reflexivity.
Defined.




Lemma OnExecute_success_witness :
  OnExecute env "vectors" blank_schema
  = (Returns Status_OK,
     {| collection_name_ := "vectors"; dimension_ := 128;
        index_file_size_ := 1024; server.metric_type_ := 1 |}).
Proof.
  apply (OnExecute_success env "vectors" blank_schema
           {| collection_id_ := "vectors"; owner_table_ := "";
              meta_dimension_ := 128; meta_index_file_size_ := 1024;
              meta_metric_type_ := 1 |}).
  exists Status_OK, Status_OK. repeat split; reflexivity.
Defined.

Lemma OnExecute_hides_DB_NOT_FOUND_witness :
  (OnExecute env "missing" blank_schema).1
  = Returns {| code := 30100; message := "Collection missing does not exist." |}
  ∧ code {| code := 30100; message := "Collection missing does not exist." |}
    ≠ DB_NOT_FOUND env.
Proof.
  split; [reflexivity|].
  apply (OnExecute_hides_DB_NOT_FOUND env "missing" blank_schema).
  - intros status [= <-]. vm_compute. discriminate.
  - vm_compute. discriminate.
  - vm_compute. discriminate.
  - vm_compute. discriminate.
  - vm_compute. discriminate.
  - reflexivity.
Defined.

Lemma OnExecute_fail_points_witness :
  (OnExecute failing_env "vectors" blank_schema).1
  = Returns {| code := 30001; message := "" |}
  ∧ ok {| code := 30001; message := "" |} = false
  ∧ (OnExecute failing_env "vectors" blank_schema).2 = blank_schema.
Proof.
  split; [reflexivity|].
  destruct (OnExecute_fail_points failing_env "vectors" blank_schema) as [Hok Hschema].
  - left. reflexivity.
  - vm_compute. discriminate.
  - vm_compute. discriminate.
  - split; [apply Hok; reflexivity | exact Hschema].
Defined.

End more_witnesses.
